(** * kuusi: ranking of choosables and polymorphic widget rendering

    A shallow embedding of [web/rest/widget.py] and [web/rest/choosable.py].
    Python dictionaries are finite maps, model tables are lists in primary-key
    order, many-to-many relations are finite sets of primary keys, and raised
    exceptions are the [Raise] results of a small error monad. *)

From Stdlib Require Import ZArith.
From stdpp Require Import base option list gmap strings.

Local Open Scope Z_scope.

(** ** Exceptions *)

Module Py.

(** What a Python exception of this code carries. *)
Inductive exn : Type :=
| KeyError (key : string)
| AttributeError (attr : string).

Inductive result (A : Type) : Type :=
| Ok (a : A)
| Raise (e : exn).

Arguments Ok {A} a.
Arguments Raise {A} e.

Definition bind {A B : Type} (r : result A) (k : A -> result B) : result B :=
  match r with
  | Ok a => k a
  | Raise e => Raise e
  end.

(** [for x in xs: acc = body(acc, x)], stopping at the first exception. *)
Fixpoint for_each {A S : Type} (body : S -> A -> result S) (acc : S) (xs : list A)
  : result S :=
  match xs with
  | [] => Ok acc
  | x :: rest => bind (body acc x) (fun acc' => for_each body acc' rest)
  end.

(** A serializer with [many=True]: one representation per object, in order. *)
Fixpoint many {A B : Type} (to_representation : A -> result B) (xs : list A)
  : result (list B) :=
  match xs with
  | [] => Ok []
  | x :: rest =>
      bind (to_representation x) (fun d =>
      bind (many to_representation rest) (fun ds => Ok (d :: ds)))
  end.

End Py.

Import Py.

#[global] Instance result_bind : MBind result := fun A B k r => bind r k.
#[global] Instance result_ret : MRet result := fun A a => Ok a.

(** ** Models (the fields of [web.models] that the two modules read) *)

(** What a serializer of another module returns: primitive data. *)
#[warnings="-register-all"]
Inductive Json : Type :=
| JNull
| JNum (n : Z)
| JStr (s : string)
| JList (items : list Json)
| JDict (fields : list (string * Json)).

Record Session : Type := {
  session_id : Z;
  result_id : string;
  language_code : string
}.

Record Facette : Type := {
  facette_pk : Z;
  facette_topic : string
}.

Record FacetteSelection : Type := {
  selection_session : option Z;   (* foreign key, NULL as None *)
  selection_facette : Z;          (* foreign key *)
  weight : string
}.

#[global] Instance FacetteSelection_eq_dec : EqDecision FacetteSelection.
Proof. solve_decision. Defined.

Record FacetteAssignment : Type := {
  assignment_pk : Z;
  assignment_facettes : gset Z;     (* [facettes], many-to-many *)
  assignment_choosables : gset Z;   (* [choosables], many-to-many: the targets *)
  assignment_type : string
}.

Record ChoosableMeta : Type := {
  meta_value : string
}.

Record Choosable : Type := {
  choosable_pk : Z;
  name : string;
  bg_color : string;
  fg_color : string;
  meta : gmap string ChoosableMeta
}.

Record SessionVersion : Type := {
  version_pk : Z;
  version_name : string
}.

(** Modelled from the spec: the class declarations of [web.models] are not part
    of the two modules. A page holds widgets of these variants: HTML content,
    navigation, session-version list, two facette-selection variants (the
    radio one is the specialisation of the generic one: "specialized before
    generic"), result list and result share. [Subclass] is any further model
    class deriving from one of them. *)
Inductive WidgetClass : Type :=
| Widget
| HTMLWidget
| NavigationWidget
| SessionVersionWidget
| FacetteRadioSelectionWidget
| FacetteSelectionWidget
| ResultListWidget
| ResultShareWidget
| Subclass (class_name : string) (base : WidgetClass).

#[global] Instance WidgetClass_eq_dec : EqDecision WidgetClass.
Proof. solve_decision. Defined.

(** Modelled from the spec: the method resolution order of a widget class, the
    class itself first (single inheritance from [Widget]). *)
Fixpoint mro (c : WidgetClass) : list WidgetClass :=
  match c with
  | Widget => [Widget]
  | FacetteRadioSelectionWidget =>
      [FacetteRadioSelectionWidget; FacetteSelectionWidget; Widget]
  | Subclass _ base => c :: mro base
  | _ => [c; Widget]
  end.

Definition issubclass (c key : WidgetClass) : bool := bool_decide (key ∈ mro c).

Definition __name__ (c : WidgetClass) : string :=
  match c with
  | Widget => "Widget"
  | HTMLWidget => "HTMLWidget"
  | NavigationWidget => "NavigationWidget"
  | SessionVersionWidget => "SessionVersionWidget"
  | FacetteRadioSelectionWidget => "FacetteRadioSelectionWidget"
  | FacetteSelectionWidget => "FacetteSelectionWidget"
  | ResultListWidget => "ResultListWidget"
  | ResultShareWidget => "ResultShareWidget"
  | Subclass class_name _ => class_name
  end.

(** A widget instance. [template] is read on HTML widgets only and [topic] on
    the facette-selection widgets only. *)
Record WidgetInstance : Type := {
  type : WidgetClass;
  widget_pk : Z;
  row : Z;
  col : Z;
  width : Z;
  pages : list Z;
  template : string;
  topic : string
}.

Definition isinstance (widget : WidgetInstance) (key : WidgetClass) : bool :=
  issubclass (type widget) key.

(** Modelled from the spec: the discriminator of a rendered record is the
    widget's declared type tag. *)
Definition widget_type (widget : WidgetInstance) : string := __name__ (type widget).

Record Page : Type := {
  page_id : Z;
  widget_list : list WidgetInstance
}.

(** The tables the querysets read. *)
Record Database : Type := {
  Page_objects : list Page;
  Session_objects : list Session;
  Choosable_objects : list Choosable;
  Facette_objects : list Facette;
  FacetteSelection_objects : list FacetteSelection;
  FacetteAssignment_objects : list FacetteAssignment;
  SessionVersion_objects : list SessionVersion
}.

(** What the two modules import from [kuusi.settings], [web.models] and the
    sibling serializer modules. Weights are integers, as in the spec's
    examples. *)
Record Imports : Type := {
  WEIGHT_MAP : gmap string Z;
  LANGUAGE_CODES : list string;
  (* FacetteAssignment.AssignmentType *)
  choices : list (string * string);
  get_score : gmap string Z -> Z;
  (* Choosable.__(field, language_code) *)
  translate : Choosable -> string -> string -> string;
  (* FacetteSerializer(facettes, many=True).data, under a session context *)
  FacetteSerializer : list Facette -> string -> list Json;
  (* SessionVersionSerializer(versions, many=True).data *)
  SessionVersionSerializer : list SessionVersion -> string -> list Json
}.

(** ** Rendered records *)

Record ChoosableData : Type := {
  c_id : Z;
  c_name : string;
  c_description : string;
  c_bg_color : string;
  c_fg_color : string;
  c_meta : gmap string string
}.

Record RankedChoosableData : Type := {
  rc_fields : ChoosableData;
  rc_rank : Z
}.

(** WIDGET_SERIALIZER_BASE_FIELDS *)
Record WidgetFields : Type := {
  w_id : Z;
  w_row : Z;
  w_col : Z;
  w_width : Z;
  w_pages : list Z;
  w_widget_type : string
}.

(** One constructor per field tuple of the [Meta] classes. *)
Inductive WidgetData : Type :=
| BaseData (fields : WidgetFields)
| TemplateData (fields : WidgetFields) (template : string)
| FacettesData (fields : WidgetFields) (topic : string) (facettes : list Json)
| VersionsData (fields : WidgetFields) (versions : list Json)
| ChoosablesData (fields : WidgetFields) (choosables : list RankedChoosableData).

Record Response (A : Type) : Type := {
  status_code : Z;
  data : option A
}.

Arguments status_code {A} _.
Arguments data {A} _.

Definition HTTP_200_OK : Z := 200.
Definition HTTP_412_PRECONDITION_FAILED : Z := 412.

(** ** The two modules *)

Section Model.

Variable env : Imports.
Variable db : Database.

(** *** web/rest/choosable.py *)

Definition get_meta (obj : Choosable) : gmap string string :=
  meta_value <$> meta obj.

Definition ChoosableSerializer_get_description (obj : Choosable) : string :=
  translate env obj "description" "en".

Definition ChoosableSerializer_data (obj : Choosable) : ChoosableData :=
  {| c_id := choosable_pk obj;
     c_name := name obj;
     c_description := ChoosableSerializer_get_description obj;
     c_bg_color := bg_color obj;
     c_fg_color := fg_color obj;
     c_meta := get_meta obj |}.

(** [lang not in LANGUAGE_CODES]; a request without the parameter has
    [lang = None]. *)
Definition lang_in_LANGUAGE_CODES (lang : option string) : bool :=
  match lang with
  | Some code => bool_decide (code ∈ LANGUAGE_CODES env)
  | None => false
  end.

Definition ChoosableViewSet_list (lang : option string) : Response (list ChoosableData) :=
  if lang_in_LANGUAGE_CODES lang
  then {| status_code := HTTP_200_OK;
          data := Some (ChoosableSerializer_data <$> Choosable_objects db) |}
  else {| status_code := HTTP_412_PRECONDITION_FAILED; data := None |}.

(** *** web/rest/widget.py: the serializers *)

Definition WidgetSerializer_fields (obj : WidgetInstance) : WidgetFields :=
  {| w_id := widget_pk obj;
     w_row := row obj;
     w_col := col obj;
     w_width := width obj;
     w_pages := pages obj;
     w_widget_type := widget_type obj |}.

Definition get_facettes (obj : WidgetInstance) (session_pk : string) : list Json :=
  let facettes := filter (fun f => facette_topic f = topic obj) (Facette_objects db) in
  FacetteSerializer env facettes session_pk.

Definition get_versions (session_pk : string) : list Json :=
  SessionVersionSerializer env (SessionVersion_objects db) session_pk.

(** [Session.objects.filter(result_id=...).first()] *)
Definition Session_first (session_pk : string) : option Session :=
  head (filter (fun s => result_id s = session_pk) (Session_objects db)).

Definition get_rank (ranking : gmap Z Z) (obj : Choosable) : Z :=
  match ranking !! choosable_pk obj with
  | Some rank => rank
  | None => 9999999999
  end.

Definition RankedChoosableSerializer_get_description
    (session_pk : string) (obj : Choosable) : result string :=
  match Session_first session_pk with
  | Some session => Ok (translate env obj "description" (language_code session))
  | None => Raise (AttributeError "language_code")
  end.

Definition RankedChoosableSerializer_data
    (session_pk : string) (ranking : gmap Z Z) (obj : Choosable)
  : result RankedChoosableData :=
  description ← RankedChoosableSerializer_get_description session_pk obj;
  mret {| rc_fields :=
            {| c_id := choosable_pk obj;
               c_name := name obj;
               c_description := description;
               c_bg_color := bg_color obj;
               c_fg_color := fg_color obj;
               c_meta := get_meta obj |};
          rc_rank := get_rank ranking obj |}.

(** *** ResultListWidgetSerializer.get_choosables *)

(** One zero slot per identifier of [AssignmentType.choices]. *)
Definition init_scores : gmap string Z :=
  foldl (fun scores key => <[key.1 := 0]> scores) ∅ (choices env).

(** [scores_by_type[assignment.assignment_type] += weighted_score] *)
Definition add_assignment (selection_weight_value : Z)
    (scores : gmap string Z) (assignment : FacetteAssignment)
  : result (gmap string Z) :=
  let weighted_score := 1 * selection_weight_value in
  match scores !! assignment_type assignment with
  | Some score =>
      Ok (<[assignment_type assignment := score + weighted_score]> scores)
  | None => Raise (KeyError (assignment_type assignment))
  end.

(** [FacetteAssignment.objects.filter(facettes__in=[facette])] *)
Definition assignments_of (facette : Z) : list FacetteAssignment :=
  filter (fun a => facette ∈ assignment_facettes a) (FacetteAssignment_objects db).

(** The body of [for selection in selections]. *)
Definition add_selection (scores : gmap string Z) (selection : FacetteSelection)
  : result (gmap string Z) :=
  let facette := selection_facette selection in
  let selection_weight_key := weight selection in
  match WEIGHT_MAP env !! selection_weight_key with
  | None => Raise (KeyError selection_weight_key)
  | Some selection_weight_value =>
      for_each (add_assignment selection_weight_value) scores (assignments_of facette)
  end.

(** The score vector the loop body builds for [choosable]. *)
Definition scores_by_type (choosable : Choosable) (selections : list FacetteSelection)
  : result (gmap string Z) :=
  for_each add_selection init_scores selections.

(** [FacetteSelection.objects.filter(session=session)]; for [session = None]
    these are the rows whose session is NULL. *)
Definition selections_of (session : option Session) : list FacetteSelection :=
  filter (fun s => selection_session s = session_id <$> session)
         (FacetteSelection_objects db).

(** The body of [for choosable in choosables]. *)
Definition rank_choosable (selections : list FacetteSelection)
    (ranking : gmap Z Z) (choosable : Choosable) : result (gmap Z Z) :=
  scores ← scores_by_type choosable selections;
  mret (<[choosable_pk choosable := get_score env scores]> ranking).

Definition compute_ranking (choosables : list Choosable)
    (selections : list FacetteSelection) : result (gmap Z Z) :=
  for_each (rank_choosable selections) ∅ choosables.

Definition get_choosables (session_pk : string) : result (list RankedChoosableData) :=
  let session := Session_first session_pk in
  let choosables := Choosable_objects db in
  let selections := selections_of session in
  ranking ← compute_ranking choosables selections;
  many (RankedChoosableSerializer_data session_pk ranking) choosables.

(** *** WidgetViewSet.list *)

Inductive Serializer : Type :=
| HTMLWidgetSerializer
| NavigationWidgetSerializer
| SessionVersionWidgetSerializer
| FacetteRadioSelectionWidgetSerializer
| FacetteSelectionWidgetSerializer
| ResultListWidgetSerializer
| ResultShareWidgetSerializer.

#[global] Instance Serializer_eq_dec : EqDecision Serializer.
Proof. solve_decision. Defined.

(** The ordered dictionary of [list], as its items. *)
Definition serializers : list (WidgetClass * Serializer) :=
  [ (HTMLWidget, HTMLWidgetSerializer);
    (NavigationWidget, NavigationWidgetSerializer);
    (SessionVersionWidget, SessionVersionWidgetSerializer);
    (FacetteRadioSelectionWidget, FacetteRadioSelectionWidgetSerializer);
    (FacetteSelectionWidget, FacetteSelectionWidgetSerializer);
    (ResultListWidget, ResultListWidgetSerializer);
    (ResultShareWidget, ResultShareWidgetSerializer) ].

(** [d[key]] *)
Fixpoint getitem (d : list (WidgetClass * Serializer)) (key : WidgetClass)
  : result Serializer :=
  match d with
  | [] => Raise (KeyError (__name__ key))
  | (k, value) :: rest => if decide (k = key) then Ok value else getitem rest key
  end.

(** The inner loop [for key, value in serializers.items()]: [None] when it
    ends without a match, the serializer bound to [selected_serializer]
    otherwise. *)
Fixpoint selected_serializer (items : list (WidgetClass * Serializer))
    (widget : WidgetInstance) : result (option Serializer) :=
  match items with
  | [] => Ok None
  | (key, value) :: rest =>
      if isinstance widget key
      then s ← getitem serializers (type widget); mret (Some s)
      else selected_serializer rest widget
  end.

(** [selected_serializer(widget).data] under the context [session_pk]. *)
Definition Serializer_data (s : Serializer) (widget : WidgetInstance)
    (session_pk : string) : result WidgetData :=
  let fields := WidgetSerializer_fields widget in
  match s with
  | HTMLWidgetSerializer => Ok (TemplateData fields (template widget))
  | NavigationWidgetSerializer => Ok (BaseData fields)
  | SessionVersionWidgetSerializer =>
      Ok (VersionsData fields (get_versions session_pk))
  | FacetteRadioSelectionWidgetSerializer
  | FacetteSelectionWidgetSerializer =>
      Ok (FacettesData fields (topic widget) (get_facettes widget session_pk))
  | ResultListWidgetSerializer =>
      choosables ← get_choosables session_pk;
      mret (ChoosablesData fields choosables)
  | ResultShareWidgetSerializer => Ok (BaseData fields)
  end.

(** The body of [for widget in obj.widget_list]. *)
Definition render_widget (session_pk : string)
    (rendered : list WidgetData) (widget : WidgetInstance)
  : result (list WidgetData) :=
  selected ← selected_serializer serializers widget;
  match selected with
  | None => Ok rendered
  | Some s =>
      results ← Serializer_data s widget session_pk;
      mret (rendered ++ [results])
  end.

(** [Page.objects.filter(pk=page_pk).first()] when [page_pk] is given. *)
Definition Page_first (page_pk : option Z) : option Page :=
  match page_pk with
  | Some pk => head (filter (fun p => page_id p = pk) (Page_objects db))
  | None => None
  end.

Definition WidgetViewSet_list (page_pk : option Z) (session_pk : string)
  : result (Response (list WidgetData)) :=
  match Page_first page_pk with
  | None => Raise (AttributeError "widget_list")
  | Some obj =>
      rendered ← for_each (render_widget session_pk) [] (widget_list obj);
      mret {| status_code := HTTP_200_OK; data := Some rendered |}
  end.

End Model.

(** ** Predicates of the statements *)

(** A later key of the registry is never a subclass of an earlier one. *)
Definition specialized_before_generic (items : list (WidgetClass * Serializer)) : Prop :=
  forall i j ki kj,
    items.*1 !! i = Some ki -> items.*1 !! j = Some kj -> (i < j)%nat ->
    issubclass kj ki = false.

(** The widget's own class is a key of the registry. *)
Definition registered (widget : WidgetInstance) : Prop :=
  type widget ∈ serializers.*1.

#[global] Instance registered_dec widget : Decision (registered widget).
Proof. unfold registered. apply _. Defined.

(** The widget is an instance of no key of the registry. *)
Definition unmatched (widget : WidgetInstance) : Prop :=
  forall key, key ∈ serializers.*1 -> isinstance widget key = false.

(** [m'] has the slots of [m], none of them with a smaller score. *)
Definition scores_le (m m' : gmap string Z) : Prop :=
  forall k,
    match m !! k, m' !! k with
    | Some x, Some x' => x <= x'
    | None, None => True
    | _, _ => False
    end.

(** The selection with another weight label. *)
Definition with_weight (selection : FacetteSelection) (label : string)
  : FacetteSelection :=
  {| selection_session := selection_session selection;
     selection_facette := selection_facette selection;
     weight := label |}.

(** The numeric value of the selection's weight label. *)
Definition weight_value (env : Imports) (selection : FacetteSelection) : Z :=
  default 0 (WEIGHT_MAP env !! weight selection).

(** How many assignments of category [k] are linked to the selection's
    facette. *)
Definition links (db : Database) (k : string) (selection : FacetteSelection) : Z :=
  Z.of_nat (length (filter (fun a => assignment_type a = k)
                           (assignments_of db (selection_facette selection)))).

(** The weights of the selections, each counted once per linked assignment of
    category [k]. *)
Definition category_score (env : Imports) (db : Database) (k : string)
    (selections : list FacetteSelection) : Z :=
  foldr (fun selection total => weight_value env selection * links db k selection + total)
        0 selections.

(** The base fields of a rendered record. *)
Definition fields_of (results : WidgetData) : WidgetFields :=
  match results with
  | BaseData fields
  | TemplateData fields _
  | FacettesData fields _ _
  | VersionsData fields _
  | ChoosablesData fields _ => fields
  end.

(** The record of the ranked list for [obj], described in [lang]. *)
Definition ranked_record (env : Imports) (lang : string) (rank : Z) (obj : Choosable)
  : RankedChoosableData :=
  {| rc_fields :=
       {| c_id := choosable_pk obj;
          c_name := name obj;
          c_description := translate env obj "description" lang;
          c_bg_color := bg_color obj;
          c_fg_color := fg_color obj;
          c_meta := get_meta obj |};
     rc_rank := rank |}.

(** ** A concrete catalog: the scenario of the spec's section 8 *)

Module Scenario.

(** "high" is 3 and "low" is 1; the example reduction is supports minus
    opposes. *)
Definition env : Imports :=
  {| WEIGHT_MAP := {[ "high" := 3; "low" := 1 ]};
     LANGUAGE_CODES := ["en"; "de"];
     choices := [("supports", "Supports"); ("opposes", "Opposes");
                 ("neutral", "Neutral")];
     get_score := fun scores =>
       default 0 (scores !! "supports") - default 0 (scores !! "opposes");
     translate := fun obj field lang => name obj +:+ "." +:+ field +:+ "." +:+ lang;
     FacetteSerializer := fun facettes _ => (fun f => JNum (facette_pk f)) <$> facettes;
     SessionVersionSerializer := fun versions _ =>
       (fun v => JStr (version_name v)) <$> versions |}.

Definition S : Session :=
  {| session_id := 1; result_id := "abc"; language_code := "de" |}.

(** A session that has not selected anything yet. *)
Definition S0 : Session :=
  {| session_id := 2; result_id := "fresh"; language_code := "en" |}.

Definition C1 : Choosable :=
  {| choosable_pk := 1; name := "one"; bg_color := "white"; fg_color := "black";
     meta := ∅ |}.

Definition C2 : Choosable :=
  {| choosable_pk := 2; name := "two"; bg_color := "white"; fg_color := "black";
     meta := ∅ |}.

Definition F1 : Facette := {| facette_pk := 1; facette_topic := "hardware" |}.
Definition F2 : Facette := {| facette_pk := 2; facette_topic := "hardware" |}.

Definition selection1 : FacetteSelection :=
  {| selection_session := Some 1; selection_facette := 1; weight := "high" |}.

Definition selection2 : FacetteSelection :=
  {| selection_session := Some 1; selection_facette := 2; weight := "low" |}.

(** A1 links F1 to "supports" and A2 links F2 to "opposes"; both target C1
    only. *)
Definition A1 : FacetteAssignment :=
  {| assignment_pk := 1; assignment_facettes := {[ 1 ]};
     assignment_choosables := {[ 1 ]}; assignment_type := "supports" |}.

Definition A2 : FacetteAssignment :=
  {| assignment_pk := 2; assignment_facettes := {[ 2 ]};
     assignment_choosables := {[ 1 ]}; assignment_type := "opposes" |}.

Definition widget (c : WidgetClass) (pk : Z) : WidgetInstance :=
  {| type := c; widget_pk := pk; row := pk; col := 1; width := 12; pages := [1];
     template := "about"; topic := "hardware" |}.

(** Page 1 holds an HTML widget and the result list, page 2 a radio and a
    checkbox selection, page 3 a widget of a class deriving from [HTMLWidget]
    without a serializer of its own, page 4 a widget of the base class between
    two navigation widgets. *)
Definition pages : list Page :=
  [ {| page_id := 1;
       widget_list := [widget HTMLWidget 1; widget ResultListWidget 2] |};
    {| page_id := 2;
       widget_list := [widget FacetteRadioSelectionWidget 3;
                       widget FacetteSelectionWidget 4] |};
    {| page_id := 3;
       widget_list := [widget (Subclass "BannerWidget" HTMLWidget) 5] |};
    {| page_id := 4;
       widget_list := [widget NavigationWidget 6; widget Widget 7;
                       widget ResultShareWidget 8] |} ].

Definition db : Database :=
  {| Page_objects := pages;
     Session_objects := [S; S0];
     Choosable_objects := [C1; C2];
     Facette_objects := [F1; F2];
     FacetteSelection_objects := [selection1; selection2];
     FacetteAssignment_objects := [A1; A2];
     SessionVersion_objects := [] |}.

(** The same catalog with one selection whose weight label is not configured. *)
Definition selection3 : FacetteSelection :=
  {| selection_session := Some 1; selection_facette := 1; weight := "extreme" |}.

Definition db_unknown_weight : Database :=
  {| Page_objects := pages;
     Session_objects := [S; S0];
     Choosable_objects := [C1; C2];
     Facette_objects := [F1; F2];
     FacetteSelection_objects := [selection1; selection3];
     FacetteAssignment_objects := [A1; A2];
     SessionVersion_objects := [] |}.

(** ... and with that selection but no choosable at all. *)
Definition db_empty_catalog : Database :=
  {| Page_objects := pages;
     Session_objects := [S; S0];
     Choosable_objects := [];
     Facette_objects := [F1; F2];
     FacetteSelection_objects := [selection1; selection3];
     FacetteAssignment_objects := [A1; A2];
     SessionVersion_objects := [] |}.

End Scenario.

(** ** Properties *)

Ltac unfold_result :=
  unfold mbind, result_bind, mret, result_ret, bind in *.

Section Proofs.

Variable env : Imports.
Variable db : Database.

(** *** Loops *)

Lemma for_each_app {A S : Type} (body : S -> A -> result S) acc xs ys :
  for_each body acc (xs ++ ys)
  = bind (for_each body acc xs) (fun acc' => for_each body acc' ys).
Proof.
  revert acc. induction xs as [|x xs IH]; intros acc; simpl; [done|].
  destruct (body acc x); simpl; auto.
Qed.

(** *** The accumulator of one scoring pass *)

Lemma zero_slots_lookup (l : list (string * string)) (m : gmap string Z) k :
  foldl (fun scores key => <[key.1 := 0]> scores) m l !! k
  = if decide (k ∈ l.*1) then Some 0 else m !! k.
Proof.
  revert m. induction l as [|[i label] l IH]; intros m; [done|].
  rewrite fmap_cons. cbn [foldl fst].
  - rewrite IH. destruct (decide (k ∈ l.*1)) as [Hin|Hout].
    + rewrite decide_True; [done|]. by right.
    + destruct (decide (i = k)) as [->|Hne].
      * rewrite lookup_insert_eq, decide_True; [done|]. by left.
      * rewrite lookup_insert_ne by done.
        rewrite decide_False; [done|].
        intros [?|?]%elem_of_cons; simplify_eq; done.
Qed.

Lemma init_scores_lookup k :
  init_scores env !! k = if decide (k ∈ (choices env).*1) then Some 0 else None.
Proof. unfold init_scores. by rewrite zero_slots_lookup, lookup_empty. Qed.

Lemma scores_by_type_any_choosable c c' selections :
  scores_by_type env db c selections = scores_by_type env db c' selections.
Proof. reflexivity. Qed.

Lemma ranking_of_constant_scores selections scores choosables acc :
  (forall c, scores_by_type env db c selections = Ok scores) ->
  exists ranking,
    for_each (rank_choosable env db selections) acc choosables = Ok ranking
    /\ (forall c, c ∈ choosables ->
          ranking !! choosable_pk c = Some (get_score env scores))
    /\ (forall pk, pk ∉ choosable_pk <$> choosables -> ranking !! pk = acc !! pk).
Proof.
  intros Hscores. revert acc.
  induction choosables as [|c cs IH]; intros acc; simpl.
  - exists acc. split; [done|]. split; [|done].
    intros c Hc. by apply elem_of_nil in Hc.
  - unfold rank_choosable at 1. rewrite Hscores. unfold_result.
    destruct (IH (<[choosable_pk c := get_score env scores]> acc))
      as (ranking & Hrun & Hin & Hout).
    exists ranking. split; [done|]. split.
    + intros c' [->|Hc']%elem_of_cons; [|by apply Hin].
      destruct (decide (choosable_pk c ∈ choosable_pk <$> cs)) as [Hdup|Hfresh].
      * apply list_elem_of_fmap in Hdup as (c'' & Hpk & Hc'').
        rewrite Hpk. by apply Hin.
      * rewrite (Hout _ Hfresh). apply lookup_insert_eq.
    + intros pk Hpk.
      apply not_elem_of_cons in Hpk as [Hne Hpk].
      rewrite (Hout _ Hpk). by apply lookup_insert_ne.
Qed.

(** C6: for a session without facette selections, every choosable's score
    accumulator holds exactly one slot per identifier of the category choices,
    each of them zero, the ranking is computed without exception, and every
    choosable of the catalog gets one and the same reduced rank. *)
Theorem no_selections_all_zero_same_rank (session_pk : string) :
  selections_of db (Session_first db session_pk) = [] ->
  (forall choosable, exists scores,
      scores_by_type env db choosable
        (selections_of db (Session_first db session_pk)) = Ok scores
      /\ (forall k, k ∈ (choices env).*1 <-> scores !! k = Some 0)
      /\ (forall k v, scores !! k = Some v -> v = 0))
  /\ exists ranking rank,
      compute_ranking env db (Choosable_objects db)
        (selections_of db (Session_first db session_pk)) = Ok ranking
      /\ forall choosable, choosable ∈ Choosable_objects db ->
           ranking !! choosable_pk choosable = Some rank
           /\ get_rank ranking choosable = rank.
Proof.
  intros ->. split.
  - intros choosable. exists (init_scores env). split; [done|].
    split; intros k; [|intros v]; rewrite init_scores_lookup;
      case_decide; naive_solver.
  - destruct (ranking_of_constant_scores [] (init_scores env)
                (Choosable_objects db) ∅) as (ranking & Hrun & Hin & _); [done|].
    exists ranking, (get_score env (init_scores env)). split; [done|].
    intros c Hc. unfold get_rank. by rewrite (Hin c Hc).
Qed.


(** C10: the choosable list endpoint answers every request whose [lang] is an
    allowed code with status 200 and one record per choosable, in order, whose
    description is the translation to the fixed code "en"; the answer is the
    same for every allowed [lang], and any other [lang] is answered 412
    without data. *)
Theorem choosable_list_description_is_en (lang : string) :
  lang ∈ LANGUAGE_CODES env ->
  (exists records,
      ChoosableViewSet_list env db (Some lang)
      = {| status_code := HTTP_200_OK; data := Some records |}
      /\ Forall2 (fun obj record =>
                    c_description record = translate env obj "description" "en")
                 (Choosable_objects db) records)
  /\ (forall lang', lang' ∈ LANGUAGE_CODES env ->
        ChoosableViewSet_list env db (Some lang')
        = ChoosableViewSet_list env db (Some lang))
  /\ (forall other, lang_in_LANGUAGE_CODES env other = false ->
        ChoosableViewSet_list env db other
        = {| status_code := HTTP_412_PRECONDITION_FAILED; data := None |}).
Proof.
  intros Hlang.
  assert (Hok : forall l, l ∈ LANGUAGE_CODES env ->
            ChoosableViewSet_list env db (Some l)
            = {| status_code := HTTP_200_OK;
                 data := Some (ChoosableSerializer_data env <$> Choosable_objects db) |}).
  { intros l Hl. unfold ChoosableViewSet_list, lang_in_LANGUAGE_CODES.
    by rewrite bool_decide_eq_true_2. }
  split; [|split].
  - eexists. split; [by apply Hok|].
    apply Forall2_fmap_r, Forall_Forall2_diag, Forall_forall. done.
  - intros lang' Hlang'. by rewrite !Hok.
  - intros other Hother. unfold ChoosableViewSet_list. by rewrite Hother.
Qed.

(** *** Dispatch *)

Lemma isinstance_type widget : isinstance widget (type widget) = true.
Proof.
  unfold isinstance, issubclass. apply bool_decide_eq_true_2.
  destruct (type widget); simpl; by left.
Qed.

Lemma getitem_Ok d key s :
  NoDup d.*1 -> (key, s) ∈ d -> getitem d key = Ok s.
Proof.
  induction d as [|[k v] d IH]; simpl; intros Hnodup Hin.
  - by apply elem_of_nil in Hin.
  - apply NoDup_cons in Hnodup as [Hfresh Hnodup].
    apply elem_of_cons in Hin as [Heq|Hin].
    + simplify_eq. by rewrite decide_True.
    + rewrite decide_False; [by apply IH|].
      intros ->. apply Hfresh. by apply (list_elem_of_fmap_2 fst) in Hin.
Qed.

Lemma getitem_Raise d key :
  key ∉ d.*1 -> getitem d key = Raise (KeyError (__name__ key)).
Proof.
  induction d as [|[k v] d IH]; simpl; intros Hout; [done|].
  apply not_elem_of_cons in Hout as [Hne Hout].
  rewrite decide_False by done. by apply IH.
Qed.

Lemma serializers_NoDup : NoDup serializers.*1.
Proof. apply (bool_decide_unpack _). by vm_compute. Qed.

Lemma selected_serializer_match items widget :
  (exists key, key ∈ items.*1 /\ isinstance widget key = true) ->
  selected_serializer items widget
  = (s ← getitem serializers (type widget); mret (Some s)).
Proof.
  induction items as [|[k v] items IH]; simpl; intros (key & Hin & Hinst).
  - by apply elem_of_nil in Hin.
  - destruct (isinstance widget k) eqn:Hk; [done|].
    apply IH. exists key. split; [|done].
    apply elem_of_cons in Hin as [->|Hin]; [congruence|done].
Qed.

Lemma selected_serializer_no_match items widget :
  (forall key, key ∈ items.*1 -> isinstance widget key = false) ->
  selected_serializer items widget = Ok None.
Proof.
  induction items as [|[k v] items IH]; simpl; intros Hnone; [done|].
  rewrite (Hnone k) by (by left). apply IH. intros key Hin. apply Hnone. by right.
Qed.

Lemma selected_serializer_registered widget s :
  (type widget, s) ∈ serializers ->
  selected_serializer serializers widget = Ok (Some s).
Proof.
  intros Hin. rewrite selected_serializer_match.
  - by rewrite (getitem_Ok _ _ s serializers_NoDup Hin).
  - exists (type widget). split; [|apply isinstance_type].
    by apply (list_elem_of_fmap_2 fst) in Hin.
Qed.

Lemma selected_serializer_unregistered widget :
  (exists key, key ∈ serializers.*1 /\ isinstance widget key = true) ->
  type widget ∉ serializers.*1 ->
  selected_serializer serializers widget = Raise (KeyError (__name__ (type widget))).
Proof.
  intros Hmatch Hout. rewrite selected_serializer_match by done.
  by rewrite getitem_Raise.
Qed.

Lemma serializers_specialized_before_generic :
  specialized_before_generic serializers.
Proof.
  intros i j ki kj Hi Hj Hlt.
  assert (Hbound : (j < 7)%nat) by (apply lookup_lt_Some in Hj; exact Hj).
  destruct j as [|[|[|[|[|[|[|j]]]]]]]; try lia;
    destruct i as [|[|[|[|[|[|[|i]]]]]]]; try lia;
    simpl in Hi, Hj; simplify_eq; reflexivity.
Qed.

(** C3: a widget whose class is itself a key of the registry is dispatched to
    the serializer registered for that class and rendered by it, never to the
    serializer registered for another key (a superclass in particular); the
    registry lists every class before its superclasses. *)
Theorem registered_subtype_gets_own_serializer (widget : WidgetInstance) (s : Serializer) :
  (type widget, s) ∈ serializers ->
  selected_serializer serializers widget = Ok (Some s)
  /\ (forall session_pk rendered,
        render_widget env db session_pk rendered widget
        = (results ← Serializer_data env db s widget session_pk;
           mret (rendered ++ [results])))
  /\ (forall key s', (key, s') ∈ serializers -> key <> type widget -> s' <> s)
  /\ specialized_before_generic serializers.
Proof.
  intros Hin. split; [by apply selected_serializer_registered|].
  split; [|split].
  - intros session_pk rendered. unfold render_widget.
    by rewrite (selected_serializer_registered widget s Hin).
  - intros key s' Hin' Hne.
    unfold serializers in Hin, Hin'.
    repeat (apply elem_of_cons in Hin as [Hin|Hin]; [simplify_eq|]);
      try (by apply elem_of_nil in Hin);
      repeat (apply elem_of_cons in Hin' as [Hin'|Hin']; [simplify_eq|]);
      try (by apply elem_of_nil in Hin'); congruence.
  - apply serializers_specialized_before_generic.
Qed.

(** C9: a widget that is an instance of a registered class while its own
    class is not a key of the registry makes the dispatch raise a KeyError on
    that class; the loop over the page's widgets raises it as soon as it
    reaches the widget, so the widget is neither skipped nor rendered by the
    serializer of the class it matched. *)
Theorem unregistered_subtype_raises_KeyError (widget : WidgetInstance) (key : WidgetClass) :
  key ∈ serializers.*1 ->
  isinstance widget key = true ->
  type widget ∉ serializers.*1 ->
  selected_serializer serializers widget = Raise (KeyError (__name__ (type widget)))
  /\ forall session_pk rendered rest,
       for_each (render_widget env db session_pk) rendered (widget :: rest)
       = Raise (KeyError (__name__ (type widget))).
Proof.
  intros Hkey Hinst Hout.
  assert (Hsel : selected_serializer serializers widget
                 = Raise (KeyError (__name__ (type widget)))).
  { apply selected_serializer_unregistered; [|done]. by exists key. }
  split; [done|].
  intros session_pk rendered rest. simpl. unfold render_widget. by rewrite Hsel.
Qed.

(** *** Rendering a page *)

Lemma ResultListWidgetSerializer_key key :
  (key, ResultListWidgetSerializer) ∈ serializers -> key = ResultListWidget.
Proof.
  unfold serializers. intros Hin.
  repeat (apply elem_of_cons in Hin as [Hin|Hin]; [by simplify_eq|]).
  by apply elem_of_nil in Hin.
Qed.

Lemma Serializer_data_Ok s widget session_pk :
  (s = ResultListWidgetSerializer ->
   exists choosables, get_choosables env db session_pk = Ok choosables) ->
  exists results, Serializer_data env db s widget session_pk = Ok results.
Proof.
  intros Hranked. destruct s; simpl; eauto.
  destruct Hranked as [choosables Hget]; [done|].
  rewrite Hget. unfold_result. eauto.
Qed.

Lemma render_widgets_in_order session_pk widgets rendered :
  Forall (fun w => registered w \/ unmatched w) widgets ->
  (ResultListWidget ∈ type <$> widgets ->
   exists choosables, get_choosables env db session_pk = Ok choosables) ->
  exists out,
    for_each (render_widget env db session_pk) rendered widgets = Ok (rendered ++ out)
    /\ Forall2 (fun w results => exists s,
                  (type w, s) ∈ serializers
                  /\ Serializer_data env db s w session_pk = Ok results)
               (filter registered widgets) out.
Proof.
  intros Hall. revert rendered.
  induction Hall as [|w ws Hw Hws IH]; intros rendered Hranked.
  - exists []. rewrite app_nil_r. split; [done|]. constructor.
  - assert (Hrest : ResultListWidget ∈ type <$> ws ->
              exists choosables, get_choosables env db session_pk = Ok choosables).
    { intros Hin. apply Hranked. rewrite fmap_cons. by right. }
    destruct Hw as [Hreg|Hnone].
    + pose proof Hreg as Hkey. unfold registered in Hkey.
      apply list_elem_of_fmap in Hkey as ([k s] & Hk & Hin). simpl in Hk. subst k.
      destruct (Serializer_data_Ok s w session_pk) as [results Hdata].
      { intros ->. apply Hranked. rewrite fmap_cons.
        rewrite (ResultListWidgetSerializer_key _ Hin). by left. }
      destruct (IH (rendered ++ [results]) Hrest) as (out & Hrun & Hout).
      exists (results :: out). split.
      * simpl. unfold render_widget at 1.
        rewrite (selected_serializer_registered w s Hin). unfold_result.
        rewrite Hdata, Hrun. by rewrite <- app_assoc.
      * rewrite filter_cons_True by done. constructor; [|done]. by exists s.
    + destruct (IH rendered Hrest) as (out & Hrun & Hout).
      exists out. split.
      * simpl. unfold render_widget at 1.
        rewrite (selected_serializer_no_match _ _ Hnone). unfold_result. apply Hrun.
      * rewrite filter_cons_False; [done|].
        intros Hreg. specialize (Hnone _ Hreg).
        by rewrite isinstance_type in Hnone.
Qed.

Lemma base_widget_unmatched widget : type widget = Widget -> unmatched widget.
Proof.
  intros Htype key Hkey. unfold isinstance, issubclass. rewrite Htype.
  unfold serializers in Hkey. simpl in Hkey.
  repeat (apply elem_of_cons in Hkey as [->|Hkey]; [reflexivity|]).
  by apply elem_of_nil in Hkey.
Qed.

(** C7, as amended: when every widget of the page either has its own class as
    a key of the registry or is an instance of no key, and the ranked list
    renders without exception if a result list widget is on the page, the
    answer has status 200 and holds, in the order of the page, exactly one
    record per widget whose class is a key, rendered by the serializer of that
    class; the other widgets leave no entry. *)
Theorem list_renders_registered_widgets_in_order
    (page_pk : option Z) (session_pk : string) (obj : Page) :
  Page_first db page_pk = Some obj ->
  Forall (fun w => registered w \/ unmatched w) (widget_list obj) ->
  (ResultListWidget ∈ type <$> widget_list obj ->
   exists choosables, get_choosables env db session_pk = Ok choosables) ->
  exists rendered,
    WidgetViewSet_list env db page_pk session_pk
    = Ok {| status_code := HTTP_200_OK; data := Some rendered |}
    /\ Forall2 (fun w results => exists s,
                  (type w, s) ∈ serializers
                  /\ Serializer_data env db s w session_pk = Ok results)
               (filter registered (widget_list obj)) rendered.
Proof.
  intros Hpage Hall Hranked.
  destruct (render_widgets_in_order session_pk (widget_list obj) [] Hall Hranked)
    as (out & Hrun & Hout).
  exists out. split; [|done].
  unfold WidgetViewSet_list. rewrite Hpage. unfold_result. by rewrite Hrun.
Qed.

(** *** Exceptions of the scoring pass *)

Lemma add_assignment_dom v scores a :
  match add_assignment v scores a with
  | Ok scores' => dom scores' = dom scores
  | Raise e => exists k, e = KeyError k /\ k ∉ dom scores
  end.
Proof.
  unfold add_assignment. destruct (scores !! assignment_type a) as [score|] eqn:Hk.
  - rewrite dom_insert_L. apply subseteq_union_1_L, singleton_subseteq_l.
    apply elem_of_dom. by exists score.
  - eexists. split; [done|]. by apply not_elem_of_dom.
Qed.

Lemma for_each_add_assignment_dom v assignments scores :
  match for_each (add_assignment v) scores assignments with
  | Ok scores' => dom scores' = dom scores
  | Raise e => exists k, e = KeyError k /\ k ∉ dom scores
  end.
Proof.
  revert scores. induction assignments as [|a l IH]; intros scores; simpl; [done|].
  pose proof (add_assignment_dom v scores a) as Hstep.
  destruct (add_assignment v scores a) as [scores'|e]; simpl; [|done].
  specialize (IH scores'). rewrite Hstep in IH. exact IH.
Qed.

Lemma add_selection_dom scores selection :
  match add_selection env db scores selection with
  | Ok scores' => dom scores' = dom scores
  | Raise e =>
      exists k, e = KeyError k /\ (WEIGHT_MAP env !! k = None \/ k ∉ dom scores)
  end.
Proof.
  unfold add_selection.
  destruct (WEIGHT_MAP env !! weight selection) as [v|] eqn:Hw; [|by eauto].
  pose proof (for_each_add_assignment_dom v
                (assignments_of db (selection_facette selection)) scores) as Hloop.
  destruct (for_each _ _ _); [done|].
  destruct Hloop as (k & -> & Hk). eauto.
Qed.

Lemma unknown_weight_raises selections scores selection :
  selection ∈ selections ->
  WEIGHT_MAP env !! weight selection = None ->
  exists k,
    for_each (add_selection env db) scores selections = Raise (KeyError k)
    /\ (WEIGHT_MAP env !! k = None \/ k ∉ dom scores).
Proof.
  intros Hin Hunknown. revert scores.
  induction selections as [|x l IH]; intros scores; [by apply elem_of_nil in Hin|].
  simpl. pose proof (add_selection_dom scores x) as Hstep.
  destruct (add_selection env db scores x) as [scores'|e] eqn:Hx; simpl.
  - apply elem_of_cons in Hin as [->|Hin].
    + unfold add_selection in Hx. by rewrite Hunknown in Hx.
    + destruct (IH Hin scores') as (k & Hrun & Hk).
      exists k. split; [done|]. by rewrite <- Hstep.
  - destruct Hstep as (k & -> & Hk). eauto.
Qed.

Lemma not_in_init_scores k : k ∉ dom (init_scores env) <-> k ∉ (choices env).*1.
Proof.
  rewrite not_elem_of_dom, init_scores_lookup. case_decide; naive_solver.
Qed.

(** C4, as amended: when the catalog holds at least one choosable, a selection
    of the session whose weight label is not a key of the weight map makes the
    scoring pass of every choosable, the ranking and the ranked list raise a
    KeyError, on a weight label that the weight map lacks or, met earlier in
    the pass, on an assignment category outside the category choices; no
    ranking is returned. *)
Theorem unknown_weight_label_raises_KeyError
    (session_pk : string) (selection : FacetteSelection) :
  Choosable_objects db <> [] ->
  selection ∈ selections_of db (Session_first db session_pk) ->
  WEIGHT_MAP env !! weight selection = None ->
  exists key,
    (WEIGHT_MAP env !! key = None \/ key ∉ (choices env).*1)
    /\ (forall choosable,
          scores_by_type env db choosable
            (selections_of db (Session_first db session_pk)) = Raise (KeyError key))
    /\ compute_ranking env db (Choosable_objects db)
         (selections_of db (Session_first db session_pk)) = Raise (KeyError key)
    /\ get_choosables env db session_pk = Raise (KeyError key).
Proof.
  intros Hcatalog Hin Hunknown.
  destruct (unknown_weight_raises _ (init_scores env) _ Hin Hunknown)
    as (key & Hrun & Hkey).
  exists key. split; [by rewrite <- not_in_init_scores|].
  split; [done|].
  assert (Hranking : compute_ranking env db (Choosable_objects db)
            (selections_of db (Session_first db session_pk)) = Raise (KeyError key)).
  { unfold compute_ranking. destruct (Choosable_objects db) as [|c cs]; [done|].
    simpl. unfold rank_choosable at 1, scores_by_type. by rewrite Hrun. }
  split; [done|]. unfold get_choosables. by rewrite Hranking.
Qed.

(** *** Monotonicity in the weights *)

Lemma scores_le_refl m : scores_le m m.
Proof. intros k. destruct (m !! k); [lia|done]. Qed.

Lemma scores_le_lookup m m' k x :
  scores_le m m' -> m !! k = Some x -> exists x', m' !! k = Some x' /\ x <= x'.
Proof.
  intros Hle Hk. specialize (Hle k). rewrite Hk in Hle.
  destruct (m' !! k) as [x'|]; [eauto|done].
Qed.

Lemma add_assignment_mono v v' m m' a n :
  v <= v' -> scores_le m m' ->
  add_assignment v m a = Ok n ->
  exists n', add_assignment v' m' a = Ok n' /\ scores_le n n'.
Proof.
  unfold add_assignment. intros Hv Hle Hrun.
  destruct (m !! assignment_type a) as [x|] eqn:Hk; [|done].
  destruct (scores_le_lookup _ _ _ _ Hle Hk) as (x' & -> & Hx).
  simplify_eq. eexists. split; [done|].
  intros k. destruct (decide (assignment_type a = k)) as [->|Hne].
  - rewrite !lookup_insert_eq. lia.
  - rewrite !lookup_insert_ne by done. apply Hle.
Qed.

Lemma for_each_add_assignment_mono v v' assignments m m' n :
  v <= v' -> scores_le m m' ->
  for_each (add_assignment v) m assignments = Ok n ->
  exists n', for_each (add_assignment v') m' assignments = Ok n' /\ scores_le n n'.
Proof.
  intros Hv. revert m m'.
  induction assignments as [|a l IH]; intros m m' Hle Hrun; simpl in *.
  - simplify_eq. eauto.
  - destruct (add_assignment v m a) as [m1|] eqn:Hstep; [|done]. simpl in Hrun.
    destruct (add_assignment_mono _ _ _ _ _ _ Hv Hle Hstep) as (m1' & -> & Hle1).
    simpl. by apply (IH m1).
Qed.

Lemma add_selection_mono m m' selection selection' n :
  selection_facette selection' = selection_facette selection ->
  (forall v, WEIGHT_MAP env !! weight selection = Some v ->
     exists v', WEIGHT_MAP env !! weight selection' = Some v' /\ v <= v') ->
  scores_le m m' ->
  add_selection env db m selection = Ok n ->
  exists n', add_selection env db m' selection' = Ok n' /\ scores_le n n'.
Proof.
  unfold add_selection. intros -> Hweights Hle Hrun.
  destruct (WEIGHT_MAP env !! weight selection) as [v|]; [|done].
  destruct (Hweights v eq_refl) as (v' & -> & Hv).
  by apply (for_each_add_assignment_mono v v' _ m).
Qed.

Lemma for_each_add_selection_mono selections m m' n :
  scores_le m m' ->
  for_each (add_selection env db) m selections = Ok n ->
  exists n', for_each (add_selection env db) m' selections = Ok n' /\ scores_le n n'.
Proof.
  revert m m'. induction selections as [|x l IH]; intros m m' Hle Hrun; simpl in *.
  - simplify_eq. eauto.
  - destruct (add_selection env db m x) as [m1|] eqn:Hstep; [|done]. simpl in Hrun.
    destruct (add_selection_mono m m' x x m1) as (m1' & -> & Hle1); try done.
    { intros v ->. exists v. split; [done|lia]. }
    simpl. by apply (IH m1).
Qed.

(** C8: replacing the weight label of one selection of a scoring pass with a
    label of strictly greater numeric value yields, for every choosable, a
    score vector with the same slots, in none of which the score is smaller
    than before. *)
Theorem weight_monotonicity
    (choosable : Choosable) (before after : list FacetteSelection)
    (selection : FacetteSelection) (label : string) (v v' : Z)
    (scores : gmap string Z) :
  WEIGHT_MAP env !! weight selection = Some v ->
  WEIGHT_MAP env !! label = Some v' ->
  v < v' ->
  scores_by_type env db choosable (before ++ selection :: after) = Ok scores ->
  exists scores',
    scores_by_type env db choosable (before ++ with_weight selection label :: after)
    = Ok scores'
    /\ forall k x, scores !! k = Some x -> exists x', scores' !! k = Some x' /\ x <= x'.
Proof.
  unfold scores_by_type. intros Hv Hv' Hlt Hrun.
  rewrite for_each_app in Hrun. rewrite for_each_app.
  destruct (for_each (add_selection env db) (init_scores env) before) as [m0|];
    [|done].
  simpl in *.
  destruct (add_selection env db m0 selection) as [m1|] eqn:Hstep; [|done].
  simpl in Hrun.
  destruct (add_selection_mono m0 m0 selection (with_weight selection label) m1)
    as (m1' & -> & Hle1); try done.
  { intros w Hw. exists v'. split; [done|]. simpl in *. simplify_eq. lia. }
  { apply scores_le_refl. }
  simpl.
  destruct (for_each_add_selection_mono after m1 m1' scores Hle1 Hrun)
    as (scores' & -> & Hle).
  exists scores'. split; [done|].
  intros k x Hk. by apply (scores_le_lookup scores).
Qed.

End Proofs.

(** ** Further properties of the scoring pass *)

Section Scoring.

Variable env : Imports.
Variable db : Database.

Lemma add_assignments_closed v assignments scores :
  (forall a, a ∈ assignments -> is_Some (scores !! assignment_type a)) ->
  exists scores',
    for_each (add_assignment v) scores assignments = Ok scores'
    /\ forall k,
         scores' !! k
         = (fun x => x + v * Z.of_nat (length (filter (fun a => assignment_type a = k)
                                                      assignments)))
             <$> scores !! k.
Proof.
  revert scores. induction assignments as [|a l IH]; intros scores Hkeys.
  - exists scores. split; [done|]. intros k. simpl.
    destruct (scores !! k); simpl; [f_equal; lia|done].
  - destruct (Hkeys a) as [x Hx]; [by left|].
    simpl. unfold add_assignment at 1. rewrite Hx. simpl.
    destruct (IH (<[assignment_type a := x + 1 * v]> scores)) as (scores' & Hrun & Hclosed).
    { intros a' Ha'. apply lookup_insert_is_Some'. right. apply Hkeys. by right. }
    exists scores'. split; [done|]. intros k. rewrite Hclosed.
    destruct (decide (assignment_type a = k)) as [<-|Hne].
    + rewrite lookup_insert_eq, Hx, filter_cons_True by done. simpl.
      f_equal. lia.
    + rewrite lookup_insert_ne, filter_cons_False by done. done.
Qed.

Lemma add_selection_closed scores selection :
  is_Some (WEIGHT_MAP env !! weight selection) ->
  (forall a, a ∈ assignments_of db (selection_facette selection) ->
     is_Some (scores !! assignment_type a)) ->
  exists scores',
    add_selection env db scores selection = Ok scores'
    /\ forall k,
         scores' !! k
         = (fun x => x + weight_value env selection * links db k selection)
             <$> scores !! k.
Proof.
  intros [v Hv] Hkeys. unfold add_selection, weight_value, links. rewrite Hv. simpl.
  by apply add_assignments_closed.
Qed.

Lemma add_selections_closed selections scores :
  (forall selection, selection ∈ selections ->
     is_Some (WEIGHT_MAP env !! weight selection)
     /\ forall a, a ∈ assignments_of db (selection_facette selection) ->
          is_Some (scores !! assignment_type a)) ->
  exists scores',
    for_each (add_selection env db) scores selections = Ok scores'
    /\ forall k,
         scores' !! k = (fun x => x + category_score env db k selections) <$> scores !! k.
Proof.
  revert scores. induction selections as [|x l IH]; intros scores Hok.
  - exists scores. split; [done|]. intros k. simpl.
    destruct (scores !! k); simpl; [f_equal; lia|done].
  - destruct (Hok x) as [Hweight Hkeys]; [by left|].
    destruct (add_selection_closed scores x Hweight Hkeys) as (scores1 & Hstep & Hone).
    destruct (IH scores1) as (scores' & Hrun & Hclosed).
    { intros y Hy. destruct (Hok y) as [Hw Hk]; [by right|]. split; [done|].
      intros a Ha. rewrite Hone. apply fmap_is_Some. by apply Hk. }
    exists scores'. split; [simpl; by rewrite Hstep|].
    intros k. rewrite Hclosed, Hone. simpl.
    destruct (scores !! k); simpl; [f_equal; lia|done].
Qed.

Lemma category_score_app k l1 l2 :
  category_score env db k (l1 ++ l2)
  = category_score env db k l1 + category_score env db k l2.
Proof.
  unfold category_score. induction l1 as [|x l1 IH]; simpl; [done|].
  rewrite IH. lia.
Qed.

Lemma category_score_cons k x l :
  category_score env db k (x :: l)
  = weight_value env x * links db k x + category_score env db k l.
Proof. reflexivity. Qed.

Lemma category_score_Permutation k l1 l2 :
  l1 ≡ₚ l2 -> category_score env db k l1 = category_score env db k l2.
Proof.
  unfold category_score. induction 1; simpl; lia.
Qed.

Lemma closed_form selections :
  (forall selection, selection ∈ selections ->
     is_Some (WEIGHT_MAP env !! weight selection)
     /\ forall a, a ∈ assignments_of db (selection_facette selection) ->
          assignment_type a ∈ (choices env).*1) ->
  exists scores,
    for_each (add_selection env db) (init_scores env) selections = Ok scores
    /\ forall k,
         scores !! k
         = if decide (k ∈ (choices env).*1)
           then Some (category_score env db k selections) else None.
Proof.
  intros Hok.
  destruct (add_selections_closed selections (init_scores env)) as (scores & Hrun & Hclosed).
  { intros x Hx. destruct (Hok x Hx) as [Hw Hk]. split; [done|].
    intros a Ha. rewrite init_scores_lookup, decide_True by (by apply Hk). done. }
  exists scores. split; [done|]. intros k.
  rewrite Hclosed, init_scores_lookup. by case_decide.
Qed.

(** X1: when every selection's weight label is configured and every
    assignment linked to a selected facette has a category of the choices, the
    scoring pass returns a vector with exactly one slot per category, holding
    the sum of the selections' weights, each counted once per assignment of
    that category linked to the selection's facette. *)
Theorem scores_by_type_closed_form
    (choosable : Choosable) (selections : list FacetteSelection) :
  (forall selection, selection ∈ selections ->
     is_Some (WEIGHT_MAP env !! weight selection)
     /\ forall a, a ∈ assignments_of db (selection_facette selection) ->
          assignment_type a ∈ (choices env).*1) ->
  exists scores,
    scores_by_type env db choosable selections = Ok scores
    /\ forall k,
         scores !! k
         = if decide (k ∈ (choices env).*1)
           then Some (category_score env db k selections) else None.
Proof. apply closed_form. Qed.

(** X2: under the same conditions the score vector does not depend on the
    order in which the selections are read. *)
Theorem scores_by_type_order_irrelevant
    (choosable : Choosable) (selections selections' : list FacetteSelection) :
  (forall selection, selection ∈ selections ->
     is_Some (WEIGHT_MAP env !! weight selection)
     /\ forall a, a ∈ assignments_of db (selection_facette selection) ->
          assignment_type a ∈ (choices env).*1) ->
  selections' ≡ₚ selections ->
  exists scores,
    scores_by_type env db choosable selections = Ok scores
    /\ scores_by_type env db choosable selections' = Ok scores.
Proof.
  intros Hok Hperm. unfold scores_by_type.
  destruct (closed_form selections Hok) as (scores & Hrun & Hclosed).
  destruct (closed_form selections') as (scores' & Hrun' & Hclosed').
  { intros x Hx. apply Hok. by rewrite <- Hperm. }
  exists scores. split; [done|]. rewrite Hrun'. f_equal.
  apply map_eq. intros k. rewrite Hclosed, Hclosed'.
  by rewrite (category_score_Permutation k _ _ Hperm).
Qed.

(** X3: replacing one selection's weight label, of value [v], with a label of
    value [v'] changes every slot by exactly [v' - v] times the number of
    assignments of that category linked to the selection's facette; the other
    selections' contributions are untouched. *)
Theorem weight_change_exact
    (choosable : Choosable) (before after : list FacetteSelection)
    (selection : FacetteSelection) (label : string) (v v' : Z) :
  (forall x, x ∈ before ++ selection :: after ->
     is_Some (WEIGHT_MAP env !! weight x)
     /\ forall a, a ∈ assignments_of db (selection_facette x) ->
          assignment_type a ∈ (choices env).*1) ->
  WEIGHT_MAP env !! weight selection = Some v ->
  WEIGHT_MAP env !! label = Some v' ->
  exists scores scores',
    scores_by_type env db choosable (before ++ selection :: after) = Ok scores
    /\ scores_by_type env db choosable (before ++ with_weight selection label :: after)
       = Ok scores'
    /\ forall k x,
         scores !! k = Some x ->
         scores' !! k = Some (x + (v' - v) * links db k selection).
Proof.
  intros Hok Hv Hv'. unfold scores_by_type.
  destruct (closed_form _ Hok) as (scores & Hrun & Hclosed).
  destruct (closed_form (before ++ with_weight selection label :: after))
    as (scores' & Hrun' & Hclosed').
  { intros x Hx. apply elem_of_app in Hx as [Hx|Hx].
    - apply Hok. apply elem_of_app. by left.
    - apply elem_of_cons in Hx as [->|Hx].
      + split; [simpl; by rewrite Hv'|]. simpl.
        apply (Hok selection). apply elem_of_app. right. by left.
      + apply Hok. apply elem_of_app. right. by right. }
  exists scores, scores'. split; [done|]. split; [done|].
  intros k x. rewrite Hclosed, Hclosed'. case_decide; [|done].
  intros [= <-]. f_equal. rewrite !category_score_app, !category_score_cons.
  unfold weight_value, links. simpl. rewrite Hv, Hv'. simpl. lia.
Qed.

End Scoring.

(** ** Further properties of the ranked list and of the page rendering *)

Section Rendering.

Variable env : Imports.
Variable db : Database.

Lemma many_Ok_fmap {A B : Type} (f : A -> result B) (g : A -> B) xs :
  (forall x, x ∈ xs -> f x = Ok (g x)) -> many f xs = Ok (g <$> xs).
Proof.
  induction xs as [|x xs IH]; intros Hf; simpl; [done|].
  rewrite Hf by (by left). simpl. rewrite IH; [done|].
  intros y Hy. apply Hf. by right.
Qed.

(** X4: when the scoring pass returns a score vector, the ranking has an
    entry for exactly the primary keys of the catalog, each of them the
    reduction of that one vector. *)
Theorem compute_ranking_entries
    (choosables : list Choosable) (selections : list FacetteSelection)
    (scores : gmap string Z) :
  (forall c, scores_by_type env db c selections = Ok scores) ->
  exists ranking,
    compute_ranking env db choosables selections = Ok ranking
    /\ forall pk,
         ranking !! pk
         = if decide (pk ∈ choosable_pk <$> choosables)
           then Some (get_score env scores) else None.
Proof.
  intros Hscores.
  destruct (ranking_of_constant_scores env db selections scores choosables ∅ Hscores)
    as (ranking & Hrun & Hin & Hout).
  exists ranking. split; [done|]. intros pk. case_decide as Hpk.
  - apply list_elem_of_fmap in Hpk as (c & -> & Hc). by apply Hin.
  - by rewrite (Hout _ Hpk).
Qed.

(** X5: for a result identifier that resolves to a session whose scoring
    pass returns, the ranked list holds one record per choosable of the
    catalog, in catalog order, described in the session's language and ranked
    by the reduction of the session's score vector. *)
Theorem get_choosables_resolved
    (session_pk : string) (session : Session) (scores : gmap string Z) :
  Session_first db session_pk = Some session ->
  (forall c, scores_by_type env db c (selections_of db (Some session)) = Ok scores) ->
  get_choosables env db session_pk
  = Ok (ranked_record env (language_code session) (get_score env scores)
          <$> Choosable_objects db).
Proof.
  intros Hsession Hscores. unfold get_choosables. rewrite Hsession.
  destruct (ranking_of_constant_scores env db _ scores (Choosable_objects db) ∅ Hscores)
    as (ranking & Hrun & Hin & _).
  unfold compute_ranking. rewrite Hrun. unfold_result.
  apply many_Ok_fmap. intros obj Hobj.
  unfold RankedChoosableSerializer_data, RankedChoosableSerializer_get_description.
  rewrite Hsession. unfold_result. unfold ranked_record, get_rank.
  by rewrite (Hin obj Hobj).
Qed.

(** X6: for a result identifier that resolves to no session, a non-empty
    catalog and a scoring pass that returns, the ranked list raises the
    AttributeError of reading the language code of the missing session. *)
Theorem get_choosables_unresolved (session_pk : string) (scores : gmap string Z) :
  Session_first db session_pk = None ->
  Choosable_objects db <> [] ->
  (forall c, scores_by_type env db c (selections_of db None) = Ok scores) ->
  get_choosables env db session_pk = Raise (AttributeError "language_code").
Proof.
  intros Hsession Hcatalog Hscores. unfold get_choosables. rewrite Hsession.
  destruct (ranking_of_constant_scores env db _ scores (Choosable_objects db) ∅ Hscores)
    as (ranking & Hrun & _).
  unfold compute_ranking. rewrite Hrun. unfold_result.
  destruct (Choosable_objects db) as [|c cs]; [done|]. simpl.
  unfold RankedChoosableSerializer_data, RankedChoosableSerializer_get_description.
  by rewrite Hsession.
Qed.

(** *** Dispatch, case by case *)

Lemma registered_serializer widget :
  registered widget -> exists s, (type widget, s) ∈ serializers.
Proof.
  intros Hreg. apply list_elem_of_fmap in Hreg as ([k s] & Hk & Hin).
  simpl in Hk. subst k. by exists s.
Qed.

Lemma dispatch_cases widget :
  (exists s, (type widget, s) ∈ serializers
             /\ selected_serializer serializers widget = Ok (Some s))
  \/ (~ registered widget /\ unmatched widget
      /\ selected_serializer serializers widget = Ok None)
  \/ (~ registered widget /\ ~ unmatched widget
      /\ selected_serializer serializers widget
         = Raise (KeyError (__name__ (type widget)))).
Proof.
  destruct (decide (registered widget)) as [Hreg|Hnot].
  - left. destruct (registered_serializer _ Hreg) as [s Hin].
    exists s. split; [done|]. by apply selected_serializer_registered.
  - right.
    destruct (decide (Exists (fun key => isinstance widget key = true) serializers.*1))
      as [Hsome|Hnone].
    + right. apply Exists_exists in Hsome as (key & Hkey & Hinst).
      split; [done|]. split.
      * intros Hun. specialize (Hun key Hkey). congruence.
      * apply selected_serializer_unregistered; [|done]. by exists key.
    + left. assert (Hun : unmatched widget).
      { intros key Hkey. apply not_true_is_false. intros Hinst.
        apply Hnone, Exists_exists. by exists key. }
      split; [done|]. split; [done|]. by apply selected_serializer_no_match.
Qed.

(** X7: the dispatch of a widget has exactly three outcomes: the serializer
    registered for the widget's own class; no serializer, when the widget is
    an instance of no registered class; a KeyError on the widget's class, when
    it is an instance of a registered class that is not its own. *)
Theorem selected_serializer_outcomes (widget : WidgetInstance) :
  (exists s, (type widget, s) ∈ serializers
             /\ selected_serializer serializers widget = Ok (Some s))
  \/ (~ registered widget /\ unmatched widget
      /\ selected_serializer serializers widget = Ok None)
  \/ (~ registered widget /\ ~ unmatched widget
      /\ selected_serializer serializers widget
         = Raise (KeyError (__name__ (type widget)))).
Proof. apply dispatch_cases. Qed.

(** *** The answer of a page *)

Lemma Page_first_unknown pk :
  pk ∉ page_id <$> Page_objects db -> Page_first db (Some pk) = None.
Proof.
  unfold Page_first. induction (Page_objects db) as [|p l IH]; intros Hout; [done|].
  apply not_elem_of_cons in Hout as [Hne Hout].
  rewrite filter_cons_False by (intros Heq; by apply Hne). by apply IH.
Qed.

(** X8: without a page key, or with a key that no page has, the request
    raises the AttributeError of reading the widget list of no page. *)
Theorem list_without_page_raises (page_pk : option Z) (session_pk : string) :
  (forall pk, page_pk = Some pk -> pk ∉ page_id <$> Page_objects db) ->
  WidgetViewSet_list env db page_pk session_pk = Raise (AttributeError "widget_list").
Proof.
  intros Hunknown. unfold WidgetViewSet_list.
  destruct page_pk as [pk|]; [|done].
  by rewrite (Page_first_unknown pk (Hunknown pk eq_refl)).
Qed.

(** X9: a page without a result list widget, each of whose widgets has its
    own class as a registry key or is an instance of no key, is answered with
    status 200 for every session key, resolved or not, with one record per
    widget whose class is a key. *)
Theorem page_without_result_list_renders (page_pk : option Z) (obj : Page) :
  Page_first db page_pk = Some obj ->
  Forall (fun w => registered w \/ unmatched w) (widget_list obj) ->
  ResultListWidget ∉ type <$> widget_list obj ->
  forall session_pk, exists rendered,
    WidgetViewSet_list env db page_pk session_pk
    = Ok {| status_code := HTTP_200_OK; data := Some rendered |}
    /\ length rendered = length (filter registered (widget_list obj)).
Proof.
  intros Hpage Hall Hnone session_pk.
  destruct (render_widgets_in_order env db session_pk (widget_list obj) [] Hall)
    as (out & Hrun & Hout); [done|].
  exists out. split.
  - unfold WidgetViewSet_list. rewrite Hpage. unfold_result. by rewrite Hrun.
  - symmetry. by eapply Forall2_length.
Qed.

Lemma Serializer_data_fields s widget session_pk results :
  Serializer_data env db s widget session_pk = Ok results ->
  fields_of results = WidgetSerializer_fields widget.
Proof.
  destruct s; simpl; intros Hdata; simplify_eq; try done.
  unfold_result. destruct (get_choosables env db session_pk); by simplify_eq.
Qed.

Lemma render_widgets_fields session_pk widgets rendered out :
  for_each (render_widget env db session_pk) rendered widgets = Ok out ->
  fields_of <$> out
  = (fields_of <$> rendered) ++ (WidgetSerializer_fields <$> filter registered widgets).
Proof.
  revert rendered. induction widgets as [|w ws IH]; intros rendered Hrun; simpl in Hrun.
  - simplify_eq. by rewrite app_nil_r.
  - destruct (render_widget env db session_pk rendered w) as [rendered1|] eqn:Hw;
      [|done].
    simpl in Hrun. apply IH in Hrun. rewrite Hrun. unfold render_widget in Hw.
    destruct (dispatch_cases w) as [(s & Hin & Hsel)|[(Hnot & _ & Hsel)|(_ & _ & Hsel)]];
      rewrite Hsel in Hw; unfold_result; [| |done].
    + destruct (Serializer_data env db s w session_pk) as [results|] eqn:Hdata;
        [|done].
      simplify_eq. rewrite filter_cons_True.
      * rewrite fmap_app, fmap_cons, <- app_assoc. simpl.
        by rewrite (Serializer_data_fields _ _ _ _ Hdata).
      * by apply (list_elem_of_fmap_2 fst) in Hin.
    + simplify_eq. by rewrite filter_cons_False.
Qed.

(** X10: whenever a page is answered, the base fields of the records (id,
    row, col, width, pages and the type tag) are those of the page's widgets
    whose class is a registry key, in the order of the page. *)
Theorem list_records_carry_widget_fields
    (page_pk : option Z) (session_pk : string) (obj : Page)
    (rendered : list WidgetData) :
  Page_first db page_pk = Some obj ->
  WidgetViewSet_list env db page_pk session_pk
  = Ok {| status_code := HTTP_200_OK; data := Some rendered |} ->
  fields_of <$> rendered
  = WidgetSerializer_fields <$> filter registered (widget_list obj).
Proof.
  unfold WidgetViewSet_list. intros -> Hrun. unfold_result.
  destruct (for_each _ _ _) as [out|] eqn:Hout; [|done].
  simplify_eq. by apply render_widgets_fields in Hout.
Qed.

(** X11: when the widgets before some widget of the page render and that
    widget raises an exception, the request raises that exception, whatever
    follows on the page; the records rendered so far are not returned. *)
Theorem list_failure_discards_prefix
    (page_pk : option Z) (session_pk : string) (obj : Page)
    (before after : list WidgetInstance) (widget : WidgetInstance)
    (rendered : list WidgetData) (e : exn) :
  Page_first db page_pk = Some obj ->
  widget_list obj = before ++ widget :: after ->
  for_each (render_widget env db session_pk) [] before = Ok rendered ->
  render_widget env db session_pk rendered widget = Raise e ->
  WidgetViewSet_list env db page_pk session_pk = Raise e.
Proof.
  intros Hpage Hlist Hbefore Hwidget. unfold WidgetViewSet_list.
  rewrite Hpage, Hlist, for_each_app, Hbefore. simpl. by rewrite Hwidget.
Qed.

(** X12: the choosable list endpoint answers with status 200 exactly when
    [lang] is given and is one of the language codes, and with status 412 and
    no data otherwise; the records of a 200 answer list the primary keys of
    the catalog in order. *)
Theorem choosable_list_status (lang : option string) :
  (status_code (ChoosableViewSet_list env db lang) = HTTP_200_OK
   <-> exists code, lang = Some code /\ code ∈ LANGUAGE_CODES env)
  /\ (status_code (ChoosableViewSet_list env db lang) = HTTP_200_OK
      \/ ChoosableViewSet_list env db lang
         = {| status_code := HTTP_412_PRECONDITION_FAILED; data := None |})
  /\ (forall records,
        data (ChoosableViewSet_list env db lang) = Some records ->
        c_id <$> records = choosable_pk <$> Choosable_objects db).
Proof.
  unfold ChoosableViewSet_list, lang_in_LANGUAGE_CODES.
  destruct lang as [code|]; [destruct (decide (code ∈ LANGUAGE_CODES env)) as [Hin|Hout]|].
  - rewrite bool_decide_eq_true_2 by done. simpl. split; [|split].
    + split; [by exists code|done].
    + by left.
    + intros records [= <-]. rewrite <- list_fmap_compose. done.
  - rewrite bool_decide_eq_false_2 by done. simpl. split; [|split].
    + split; [done|]. intros (code' & [= <-] & Hin). done.
    + by right.
    + done.
  - simpl. split; [|split].
    + split; [done|]. by intros (code' & ? & _).
    + by right.
    + done.
Qed.

End Rendering.

(** ** The properties on the concrete catalog *)

Import Scenario.

(** C1: in the scenario both assignments target C1 only, yet the scoring pass
    of C2 adds the weights of both selections to C2's slots (3 to "supports",
    1 to "opposes"), as it does for C1: the assignments are filtered by the
    selection's facette alone. *)
Theorem nontarget_choosable_is_scored :
  (choosable_pk C2 ∉ assignment_choosables A1)
  /\ (choosable_pk C2 ∉ assignment_choosables A2)
  /\ (scores ← scores_by_type env db C2 (selections_of db (Session_first db "abc"));
      mret (scores !! "supports", scores !! "opposes", scores !! "neutral"))
     = Ok (Some 3, Some 1, Some 0)
  /\ scores_by_type env db C2 (selections_of db (Session_first db "abc"))
     = scores_by_type env db C1 (selections_of db (Session_first db "abc")).
Proof.
  split; [|split; [|split]].
  - apply (bool_decide_unpack _). by vm_compute.
  - apply (bool_decide_unpack _). by vm_compute.
  - by vm_compute.
  - reflexivity.
Qed.

(** C2: with a result identifier that resolves to no session, the ranking is
    still computed (over the selections without session), and rendering page 1
    (an HTML widget and the result list) raises an AttributeError when the
    description of the first choosable reads the language code of the missing
    session; no record is returned, not even the HTML widget's. *)
Theorem unresolved_session_raises_AttributeError :
  Session_first db "nope" = None
  /\ compute_ranking env db (Choosable_objects db) (selections_of db None)
     = Ok {[ 1 := 0; 2 := 0 ]}
  /\ get_choosables env db "nope" = Raise (AttributeError "language_code")
  /\ WidgetViewSet_list env db (Some 1) "nope"
     = Raise (AttributeError "language_code").
Proof. repeat split; by vm_compute. Qed.

Lemma radio_widget_gets_radio_serializer :
  (type (widget FacetteRadioSelectionWidget 3), FacetteRadioSelectionWidgetSerializer)
    ∈ serializers
  /\ isinstance (widget FacetteRadioSelectionWidget 3) FacetteSelectionWidget = true
  /\ selected_serializer serializers (widget FacetteRadioSelectionWidget 3)
     = Ok (Some FacetteRadioSelectionWidgetSerializer).
Proof.
  assert (Hin : (type (widget FacetteRadioSelectionWidget 3),
                 FacetteRadioSelectionWidgetSerializer) ∈ serializers).
  { apply (bool_decide_unpack _). by vm_compute. }
  split; [exact Hin|]. split; [reflexivity|].
  exact (proj1 (registered_subtype_gets_own_serializer env db _ _ Hin)).
Defined.

(** With an empty catalog the unknown label "extreme" is never looked up: the
    ranking is the empty dictionary and the ranked list is empty. *)
Lemma unknown_weight_unnoticed_without_choosables :
  selection3 ∈ selections_of db_empty_catalog (Session_first db_empty_catalog "abc")
  /\ WEIGHT_MAP env !! weight selection3 = None
  /\ compute_ranking env db_empty_catalog (Choosable_objects db_empty_catalog)
       (selections_of db_empty_catalog (Session_first db_empty_catalog "abc"))
     = Ok ∅
  /\ get_choosables env db_empty_catalog "abc" = Ok [].
Proof.
  split; [|split; [|split]]; try by vm_compute.
  apply (bool_decide_unpack _). by vm_compute.
Qed.

Lemma unknown_weight_in_scenario :
  selection3 ∈ selections_of db_unknown_weight (Session_first db_unknown_weight "abc")
  /\ exists key, get_choosables env db_unknown_weight "abc" = Raise (KeyError key).
Proof.
  assert (Hin : selection3 ∈ selections_of db_unknown_weight
                  (Session_first db_unknown_weight "abc")).
  { apply (bool_decide_unpack _). by vm_compute. }
  split; [exact Hin|].
  destruct (unknown_weight_label_raises_KeyError env db_unknown_weight
              "abc" selection3) as (key & _ & _ & _ & Hget);
    [discriminate | exact Hin | reflexivity |].
  by exists key.
Defined.



Lemma fresh_session_ranks_all_alike :
  selections_of db (Session_first db "fresh") = []
  /\ exists ranking rank,
      compute_ranking env db (Choosable_objects db)
        (selections_of db (Session_first db "fresh")) = Ok ranking
      /\ forall choosable, choosable ∈ Choosable_objects db ->
           ranking !! choosable_pk choosable = Some rank
           /\ get_rank ranking choosable = rank.
Proof.
  split; [reflexivity|].
  exact (proj2 (no_selections_all_zero_same_rank env db "fresh" eq_refl)).
Defined.

(** Page 3 holds a widget that is an instance of [HTMLWidget] through a class
    without a registry key: no record, a KeyError. Page 1 with the selection
    of the unknown label "extreme": the result list widget has its serializer,
    yet the answer is a KeyError and no record at all. *)
Lemma list_raises_on_matching_widgets :
  isinstance (widget (Subclass "BannerWidget" HTMLWidget) 5) HTMLWidget = true
  /\ WidgetViewSet_list env db (Some 3) "abc" = Raise (KeyError "BannerWidget")
  /\ WidgetViewSet_list env db_unknown_weight (Some 1) "abc"
     = Raise (KeyError "extreme").
Proof. repeat split; by vm_compute. Qed.

Lemma page_with_base_widget_renders_the_others :
  exists rendered,
    WidgetViewSet_list env db (Some 4) "abc"
    = Ok {| status_code := HTTP_200_OK; data := Some rendered |}
    /\ Forall2 (fun w results => exists s,
                  (type w, s) ∈ serializers
                  /\ Serializer_data env db s w "abc" = Ok results)
               (filter registered
                  [widget NavigationWidget 6; widget Widget 7;
                   widget ResultShareWidget 8])
               rendered.
Proof.
  apply (list_renders_registered_widgets_in_order env db (Some 4) "abc"
           {| page_id := 4;
              widget_list := [widget NavigationWidget 6; widget Widget 7;
                              widget ResultShareWidget 8] |}).
  - reflexivity.
  - repeat apply Forall_cons_2; [left|right|left|apply Forall_nil_2].
    + apply (bool_decide_unpack _). by vm_compute.
    + by apply base_widget_unmatched.
    + apply (bool_decide_unpack _). by vm_compute.
  - intros _. eexists. by vm_compute.
Defined.

Lemma heavier_weight_scores_no_less :
  exists scores',
    scores_by_type env db C1 ([selection1] ++ with_weight selection2 "high" :: [])
    = Ok scores'
    /\ forall k x,
         (<["opposes" := 1]> (<["supports" := 3]> (init_scores env)) : gmap string Z)
           !! k = Some x ->
         exists x', scores' !! k = Some x' /\ x <= x'.
Proof.
  apply (weight_monotonicity env db C1 [selection1] [] selection2 "high" 1 3).
  - reflexivity.
  - reflexivity.
  - lia.
  - by vm_compute.
Defined.

Lemma banner_widget_raises_KeyError :
  isinstance (widget (Subclass "BannerWidget" HTMLWidget) 5) HTMLWidget = true
  /\ selected_serializer serializers (widget (Subclass "BannerWidget" HTMLWidget) 5)
     = Raise (KeyError "BannerWidget").
Proof.
  split; [reflexivity|].
  refine (proj1 (unregistered_subtype_raises_KeyError env db
                   (widget (Subclass "BannerWidget" HTMLWidget) 5) HTMLWidget
                   _ eq_refl _)).
  - apply (bool_decide_unpack _). by vm_compute.
  - apply (bool_decide_unpack _). by vm_compute.
Defined.

Lemma german_request_gets_english_descriptions :
  "de" ∈ LANGUAGE_CODES env
  /\ exists records,
      ChoosableViewSet_list env db (Some "de")
      = {| status_code := HTTP_200_OK; data := Some records |}
      /\ Forall2 (fun obj record =>
                    c_description record = translate env obj "description" "en")
                 (Choosable_objects db) records.
Proof.
  assert (Hin : "de" ∈ LANGUAGE_CODES env).
  { apply (bool_decide_unpack _). by vm_compute. }
  split; [exact Hin|].
  exact (proj1 (choosable_list_description_is_en env db "de" Hin)).
Defined.

(** *** The further properties on the concrete catalog *)

Ltac scenario_selections :=
  let x := fresh "x" in
  let Hx := fresh "Hx" in
  let a := fresh "a" in
  let Ha := fresh "Ha" in
  intros x Hx;
  repeat (apply elem_of_cons in Hx as [->|Hx]);
  try (by apply elem_of_nil in Hx);
  (split; [by eexists|]);
  intros a Ha; vm_compute in Ha;
  repeat (apply elem_of_cons in Ha as [->|Ha]);
  try (by apply elem_of_nil in Ha);
  apply (bool_decide_unpack _); by vm_compute.

Lemma scenario_scores_closed_form :
  exists scores,
    scores_by_type env db C1 [selection1; selection2] = Ok scores
    /\ forall k,
         scores !! k
         = if decide (k ∈ (choices env).*1)
           then Some (category_score env db k [selection1; selection2]) else None.
Proof.
  apply (scores_by_type_closed_form env db C1 [selection1; selection2]).
  scenario_selections.
Defined.

Lemma scenario_scores_swapped :
  exists scores,
    scores_by_type env db C1 [selection1; selection2] = Ok scores
    /\ scores_by_type env db C1 [selection2; selection1] = Ok scores.
Proof.
  apply (scores_by_type_order_irrelevant env db C1
           [selection1; selection2] [selection2; selection1]).
  - scenario_selections.
  - apply perm_swap.
Defined.

Lemma scenario_low_to_high :
  exists scores scores',
    scores_by_type env db C1 ([selection1] ++ selection2 :: []) = Ok scores
    /\ scores_by_type env db C1 ([selection1] ++ with_weight selection2 "high" :: [])
       = Ok scores'
    /\ forall k x,
         scores !! k = Some x ->
         scores' !! k = Some (x + (3 - 1) * links db k selection2).
Proof.
  apply (weight_change_exact env db C1 [selection1] [] selection2 "high" 1 3).
  - scenario_selections.
  - reflexivity.
  - reflexivity.
Defined.

Lemma scenario_ranking_entries :
  exists ranking,
    compute_ranking env db [C1; C2] [selection1; selection2] = Ok ranking
    /\ forall pk,
         ranking !! pk
         = if decide (pk ∈ choosable_pk <$> [C1; C2])
           then Some (get_score env
                        (<["opposes" := 1]> (<["supports" := 3]> (init_scores env))))
           else None.
Proof.
  apply (compute_ranking_entries env db [C1; C2] [selection1; selection2]).
  intros c. by vm_compute.
Defined.

Lemma scenario_ranked_list :
  get_choosables env db "abc"
  = Ok (ranked_record env (language_code S)
          (get_score env (<["opposes" := 1]> (<["supports" := 3]> (init_scores env))))
          <$> Choosable_objects db).
Proof.
  apply (get_choosables_resolved env db "abc" S).
  - reflexivity.
  - intros c. by vm_compute.
Defined.

Lemma scenario_unresolved_ranked_list :
  Session_first db "nope" = None
  /\ get_choosables env db "nope" = Raise (AttributeError "language_code").
Proof.
  split; [reflexivity|].
  apply (get_choosables_unresolved env db "nope" (init_scores env)).
  - reflexivity.
  - discriminate.
  - intros c. by vm_compute.
Defined.

Lemma scenario_unknown_page :
  WidgetViewSet_list env db (Some 9) "abc" = Raise (AttributeError "widget_list").
Proof.
  apply (list_without_page_raises env db (Some 9) "abc").
  intros pk [= <-]. apply (bool_decide_unpack _). by vm_compute.
Defined.

Lemma scenario_selection_page_unresolved_session :
  exists rendered,
    WidgetViewSet_list env db (Some 2) "nope"
    = Ok {| status_code := HTTP_200_OK; data := Some rendered |}
    /\ length rendered
       = length (filter registered
                   [widget FacetteRadioSelectionWidget 3;
                    widget FacetteSelectionWidget 4]).
Proof.
  refine (page_without_result_list_renders env db (Some 2)
            {| page_id := 2;
               widget_list := [widget FacetteRadioSelectionWidget 3;
                               widget FacetteSelectionWidget 4] |}
            eq_refl _ _ "nope").
  - repeat apply Forall_cons_2; [left|left|apply Forall_nil_2];
      apply (bool_decide_unpack _); by vm_compute.
  - apply (bool_decide_unpack _). by vm_compute.
Defined.

Lemma scenario_page_fields :
  exists rendered,
    WidgetViewSet_list env db (Some 4) "abc"
    = Ok {| status_code := HTTP_200_OK; data := Some rendered |}
    /\ fields_of <$> rendered
       = WidgetSerializer_fields
           <$> filter registered
                 [widget NavigationWidget 6; widget Widget 7;
                  widget ResultShareWidget 8].
Proof.
  eexists. split.
  - vm_compute. reflexivity.
  - refine (list_records_carry_widget_fields env db (Some 4) "abc"
              {| page_id := 4;
                 widget_list := [widget NavigationWidget 6; widget Widget 7;
                                 widget ResultShareWidget 8] |}
              _ eq_refl _).
    vm_compute. reflexivity.
Defined.

Lemma scenario_result_list_failure_loses_html_record :
  WidgetViewSet_list env db_unknown_weight (Some 1) "abc" = Raise (KeyError "extreme").
Proof.
  eapply (list_failure_discards_prefix env db_unknown_weight (Some 1) "abc" _
            [widget HTMLWidget 1] [] (widget ResultListWidget 2)).
  - reflexivity.
  - reflexivity.
  - vm_compute. reflexivity.
  - by vm_compute.
Defined.
